(** * Retrieval-augmented question answering notebook: ingestion metadata and
    context assembly

    Shallow embedding of the Python code of
    [lab-chatbot-with-multi-query-retriever.ipynb]:

    - [metadata_func], the callback handed to [JSONLoader], which copies the
      keys of a source record into the metadata dictionary of a Document;
    - [_combine_documents], the context assembler that formats every
      retrieved Document with [LLM_DOCUMENT_PROMPT] and joins the results;
    - the [_context | LLM_CONTEXT_PROMPT] prefix of [chain], which fills the
      [{context}] and [{question}] slots of the answer prompt.

    Python dictionaries are finite maps with string keys ([gmap string V]),
    Python exceptions are the [Raise] outcome of a small error monad, and
    Python strings are [string].

    The text splitter, the vector store and the multi-query retriever are
    calls into langchain and remote services whose code is not in the
    notebook; of these only the retriever appears below, as the parameter
    [retriever] of the chain.  [format_document], [from_template] and
    [str.format] are library functions too; they are modelled after their
    documented behaviour because [_combine_documents] is built on them. *)

From Stdlib Require Import String Ascii.
From stdpp Require Import gmap strings list fin_maps.

Local Open Scope string_scope.

(** ** Python values and exceptions *)

(** What [str(v)] (equivalently [format(v, '')]) yields for a value stored in
    a dictionary.  The notebook never inspects metadata values, so their type
    is left open; a Python [str] renders as itself. *)
Class PyStr (V : Type) := py_str : V → string.

#[export] Instance string_PyStr : PyStr string := λ s, s.

Inductive exn : Type :=
  | ValueError
  | KeyError.

Inductive result (A : Type) : Type :=
  | Ok (a : A)
  | Raise (e : exn).

Arguments Ok {A} a.
Arguments Raise {A} e.

#[export] Instance result_ret : MRet result := λ A a, Ok a.

#[export] Instance result_bind : MBind result := λ A B k r,
  match r with
  | Ok a => k a
  | Raise e => Raise e
  end.

(** A list comprehension [[f(x) for x in xs]]: elements are evaluated left to
    right and the first exception aborts the whole comprehension. *)
Fixpoint comprehension {A B : Type} (f : A → result B) (xs : list A)
  : result (list B) :=
  match xs with
  | [] => Ok []
  | x :: xs' =>
      y ← f x;
      ys ← comprehension f xs';
      mret (y :: ys)
  end.

(** ** Ingestion: [metadata_func] *)

Section Ingestion.
Context {V : Type}.

(** [record.items()]: the (key, value) pairs of the dictionary, each key
    once. *)
Definition items (record : gmap string V) : list (string * V) :=
  map_to_list record.

(** Body of the [for k, v in record.items()] loop: the assignment
    [metadata[k] = v], guarded by [k != 'content']. *)
Definition metadata_step (metadata : gmap string V) (kv : string * V)
  : gmap string V :=
  if decide (kv.1 ≠ "content") then <[kv.1 := kv.2]> metadata else metadata.

(** [metadata_func(record, metadata)]: the dictionary it mutates and
    returns. *)
Definition metadata_func (record metadata : gmap string V) : gmap string V :=
  foldl metadata_step metadata (items record).

End Ingestion.

(** ** Prompt templates *)

(** A parsed f-string template: literal text and named replacement fields. *)
Inductive piece : Type :=
  | Lit (text : string)
  | Field (name : string).

Definition nl : string := String "010"%char EmptyString.
Definition dquote : string := String "034"%char EmptyString.

Definition snoc_char (s : string) (c : ascii) : string :=
  s +:+ String c EmptyString.

Definition lit (text : string) : list piece :=
  match text with
  | EmptyString => []
  | _ => [Lit text]
  end.

(** Characters that end the plain name of a replacement field.  The
    notebook's templates only use plain named fields; a field with a
    conversion, a format spec, or attribute or index access is rejected by
    this scanner. *)
Definition plain_name_char (c : ascii) : bool :=
  negb (Ascii.eqb c "{" || Ascii.eqb c "!" || Ascii.eqb c ":"
        || Ascii.eqb c "." || Ascii.eqb c "[")%char.

(** The scanner behind [from_template]: doubled braces are literal braces,
    [{name}] is a replacement field, an unmatched brace is a [ValueError].
    [cur] is the literal text, or the field name, read so far. *)
Fixpoint scan (s : string) (in_field : bool) (cur : string)
  : result (list piece) :=
  match s with
  | EmptyString => if in_field then Raise ValueError else Ok (lit cur)
  | String c s' =>
      if in_field then
        if Ascii.eqb c "}" then
          match cur with
          | EmptyString => Raise ValueError
          | _ => rest ← scan s' false EmptyString; mret (Field cur :: rest)
          end
        else if plain_name_char c then scan s' true (snoc_char cur c)
        else Raise ValueError
      else if Ascii.eqb c "{" then
        match s' with
        | EmptyString => Raise ValueError
        | String c' s'' =>
            if Ascii.eqb c' "{" then scan s'' false (snoc_char cur c)
            else rest ← scan s' true EmptyString; mret (app (lit cur) rest)
        end
      else if Ascii.eqb c "}" then
        match s' with
        | EmptyString => Raise ValueError
        | String c' s'' =>
            if Ascii.eqb c' "}" then scan s'' false (snoc_char cur c)
            else Raise ValueError
        end
      else scan s' false (snoc_char cur c)
  end.

(** [PromptTemplate.from_template(template)] *)
Definition from_template (template : string) : result (list piece) :=
  scan template false EmptyString.

(** The names of the replacement fields of a template. *)
Fixpoint input_variables (prompt : list piece) : list string :=
  match prompt with
  | [] => []
  | Lit _ :: prompt' => input_variables prompt'
  | Field name :: prompt' => name :: input_variables prompt'
  end.

(** [prompt.format] called with keyword arguments: every field is replaced by the string of the
    keyword argument of that name; a missing argument is a [KeyError].
    This is Python's behaviour for fields whose name is an identifier, as
    all fields of the notebook's templates are (see [identifier] below for
    the names Python reads differently). *)
Fixpoint format (prompt : list piece) (kwargs : string → option string)
  : result string :=
  match prompt with
  | [] => Ok EmptyString
  | Lit text :: prompt' =>
      rest ← format prompt' kwargs; mret (text +:+ rest)
  | Field name :: prompt' =>
      match kwargs name with
      | None => Raise KeyError
      | Some value => rest ← format prompt' kwargs; mret (value +:+ rest)
      end
  end.

(** [separator.join(seq)] *)
Fixpoint join (separator : string) (seq : list string) : string :=
  match seq with
  | [] => EmptyString
  | [x] => x
  | x :: seq' => x +:+ separator +:+ join separator seq'
  end.

(** The text handed to [PromptTemplate.from_template] for
    [LLM_DOCUMENT_PROMPT]. *)
Definition LLM_DOCUMENT_PROMPT_template : string :=
  nl +:+ "    ---" +:+ nl +:+
  "    SOURCE: {name}" +:+ nl +:+
  "    {page_content}" +:+ nl +:+
  "    ---" +:+ nl +:+
  "    ".

(** [LLM_DOCUMENT_PROMPT], as [from_template] parses the text above (see
    [LLM_DOCUMENT_PROMPT_parsed]). *)
Definition LLM_DOCUMENT_PROMPT : list piece :=
  [ Lit (nl +:+ "    ---" +:+ nl +:+ "    SOURCE: ");
    Field "name";
    Lit (nl +:+ "    ");
    Field "page_content";
    Lit (nl +:+ "    ---" +:+ nl +:+ "    ") ].

(** The text handed to [ChatPromptTemplate.from_template] for the first
    [LLM_CONTEXT_PROMPT] (the question-answering assistant). *)
Definition LLM_CONTEXT_PROMPT_template : string :=
  "You are an assistant for question-answering tasks. Use the following pieces of retrieved" +:+ nl +:+
  "    context to answer the question. If you don't know the answer, just say that you don't know. " +:+ nl +:+
  "    Be as verbose and educational in your response as possible. " +:+ nl +:+
  "    " +:+ nl +:+
  "    context: {context}" +:+ nl +:+
  "    Question: " +:+ dquote +:+ "{question}" +:+ dquote +:+ nl +:+
  "    Answer:" +:+ nl +:+
  "    ".

Definition LLM_CONTEXT_PROMPT : list piece :=
  [ Lit ("You are an assistant for question-answering tasks. Use the following pieces of retrieved" +:+ nl +:+
         "    context to answer the question. If you don't know the answer, just say that you don't know. " +:+ nl +:+
         "    Be as verbose and educational in your response as possible. " +:+ nl +:+
         "    " +:+ nl +:+
         "    context: ");
    Field "context";
    Lit (nl +:+ "    Question: " +:+ dquote);
    Field "question";
    Lit (dquote +:+ nl +:+ "    Answer:" +:+ nl +:+ "    ") ].

(** The default [document_separator] of [_combine_documents]: two
    newlines. *)
Definition default_separator : string := nl +:+ nl.

(** ** Documents and the context assembler *)

Record Document (V : Type) : Type := mkDocument {
  page_content : string;
  metadata : gmap string V;
}.

Arguments mkDocument {V} page_content metadata.
Arguments page_content {V} d.
Arguments metadata {V} d.

Section Assembler.
Context {V : Type} `{!PyStr V}.

(** The string [format_document] substitutes for the template variable [k]:
    the entry [k] of the dictionary built from the document's
    [page_content] followed by its metadata (so metadata wins on a key
    clash), rendered with [str]. *)
Definition document_info (doc : Document V) (k : string) : option string :=
  match metadata doc !! k with
  | Some v => Some (py_str v)
  | None => if decide (k = "page_content") then Some (page_content doc) else None
  end.

(** langchain's [format_document(doc, prompt)]: a [ValueError] when a
    template variable is neither [page_content] nor a metadata key of the
    document, otherwise the template filled from the document. *)
Definition format_document (doc : Document V) (prompt : list piece)
  : result string :=
  let missing_metadata :=
    filter (λ k, document_info doc k = None) (input_variables prompt) in
  if decide (0 < length missing_metadata) then Raise ValueError
  else format prompt (document_info doc).

(** [_combine_documents(docs, document_prompt, document_separator)] *)
Definition _combine_documents (docs : list (Document V))
    (document_prompt : list piece) (document_separator : string)
  : result string :=
  doc_strings ← comprehension (λ doc, format_document doc document_prompt) docs;
  mret (join document_separator doc_strings).

(** The [_context | LLM_CONTEXT_PROMPT] prefix of [chain]: the retriever's
    documents are combined into the [context] entry, the question is passed
    through, and both fill the answer prompt; [chain_prompt] is the content
    of the prompt message handed to the language model.  The retriever is an
    external service; it may fail. *)
Section Chain.
Variable retriever : string → result (list (Document V)).

Definition _context (question : string) : result (gmap string string) :=
  docs ← retriever question;
  context ← _combine_documents docs LLM_DOCUMENT_PROMPT default_separator;
  mret (<["context" := context]> (<["question" := question]> ∅)).

Definition chain_prompt (question : string) : result string :=
  inputs ← _context question;
  format LLM_CONTEXT_PROMPT (λ k, inputs !! k).

End Chain.

End Assembler.

(** ** What the specification asks of the assembled context *)

(** The spec's reading of the context block: the wrapped passages with the
    separator placed between consecutive ones, then everything concatenated
    in order. *)
Fixpoint intersperse (separator : string) (blocks : list string)
  : list string :=
  match blocks with
  | [] => []
  | b :: blocks' =>
      match blocks' with
      | [] => [b]
      | _ => b :: separator :: intersperse separator blocks'
      end
  end.

Definition concatenation (blocks : list string) : string :=
  foldr String.append EmptyString blocks.

(** [contains needle s]: [needle in s] for Python strings. *)
Fixpoint contains (needle s : string) : bool :=
  String.prefix needle s ||
  match s with
  | EmptyString => false
  | String _ s' => contains needle s'
  end.

Section Wrapped.
Context {V : Type} `{!PyStr V}.

(** The label printed after [SOURCE:]: the document's [name] metadata. *)
Definition source_label (doc : Document V) : string :=
  from_option py_str EmptyString (metadata doc !! "name").

(** The text printed for the [page_content] variable. *)
Definition passage_body (doc : Document V) : string :=
  from_option py_str (page_content doc) (metadata doc !! "page_content").

(** A passage wrapped by the per-passage template of the notebook. *)
Definition wrapped (doc : Document V) : string :=
  nl +:+ "    ---" +:+ nl +:+
  "    SOURCE: " +:+ source_label doc +:+ nl +:+
  "    " +:+ passage_body doc +:+ nl +:+
  "    ---" +:+ nl +:+
  "    ".

End Wrapped.

(** The first [LLM_CONTEXT_PROMPT] with its two slots filled. *)
Definition answer_prompt (context question : string) : string :=
  "You are an assistant for question-answering tasks. Use the following pieces of retrieved" +:+ nl +:+
  "    context to answer the question. If you don't know the answer, just say that you don't know. " +:+ nl +:+
  "    Be as verbose and educational in your response as possible. " +:+ nl +:+
  "    " +:+ nl +:+
  "    context: " +:+ context +:+ nl +:+
  "    Question: " +:+ dquote +:+ question +:+ dquote +:+ nl +:+
  "    Answer:" +:+ nl +:+
  "    ".

(** ** Sample data *)

(** A source record in the shape of the workplace data set (values kept as
    strings), and the metadata [JSONLoader] starts from. *)
Definition sample_record : gmap string string :=
  <["content" := "Effective: March 2020"]>
    (<["name" := "Work From Home Policy"]>
       (<["category" := "teams"]> ∅)).

Definition loader_metadata : gmap string string :=
  <["source" := "temp.json"]> (<["category" := "unfiled"]> ∅).

Definition doc_sales : Document string :=
  mkDocument "The sales team is organised by region."
             (<["name" := "Sales Organization Overview"]> ∅).

(** A passage whose body has a blank line, as the first passage printed by
    the notebook does. *)
Definition doc_policy : Document string :=
  mkDocument ("Purpose" +:+ nl +:+ nl +:+ "The purpose of this policy")
             (<["name" := "Work From Home Policy"]> ∅).

(** A passage whose source record had no [name] key. *)
Definition doc_unnamed : Document string :=
  mkDocument "Untitled note" (<["category" := "teams"]> ∅).

Definition no_results : string → result (list (Document string)) :=
  λ _, Ok [].

(** ** The later iterations of the chain *)

(** The notebook rebuilds the chain twice, each time with a new
    [LLM_CONTEXT_PROMPT]; the document prompt, [_combine_documents] and
    [_context] are repeated unchanged.  All three context prompts end in
    the same block of slots. *)
Definition answer_block_template : string :=
  "    context: {context}" +:+ nl +:+
  "    Question: " +:+ dquote +:+ "{question}" +:+ dquote +:+ nl +:+
  "    Answer:" +:+ nl +:+
  "    ".

Definition answer_block (context question : string) : string :=
  "    context: " +:+ context +:+ nl +:+
  "    Question: " +:+ dquote +:+ question +:+ dquote +:+ nl +:+
  "    Answer:" +:+ nl +:+
  "    ".

(** The instruction text of the first context prompt. *)
Definition instructions : string :=
  "You are an assistant for question-answering tasks. Use the following pieces of retrieved" +:+ nl +:+
  "    context to answer the question. If you don't know the answer, just say that you don't know. " +:+ nl +:+
  "    Be as verbose and educational in your response as possible. " +:+ nl +:+
  "    " +:+ nl.

(** Second iteration: the bullet-point summariser. *)
Module Bullets.

Definition instructions : string :=
  "You are an assistant for summarizing information into bullet points. Use the following pieces" +:+ nl +:+
  "    of retrieved context to generate a summarized answer to the question, in 3 clear bullet-points. " +:+ nl +:+
  "    If you don't know the answer, just say that you don't know. " +:+ nl +:+
  "    Bullet points should be brief and only contains the most relevant keywords. " +:+ nl +:+
  "    " +:+ nl.

Definition LLM_CONTEXT_PROMPT_template : string :=
  instructions +:+ answer_block_template.

Definition LLM_CONTEXT_PROMPT : list piece :=
  [ Lit (instructions +:+ "    context: ");
    Field "context";
    Lit (nl +:+ "    Question: " +:+ dquote);
    Field "question";
    Lit (dquote +:+ nl +:+ "    Answer:" +:+ nl +:+ "    ") ].

End Bullets.

(** Third iteration: the e-mail writer. *)
Module Email.

Definition instructions : string :=
  "You are an assistant for generating emails about a given topic. Use the following pieces" +:+ nl +:+
  "    of retrieved context to generate the content of the email. Add the usual email intro and ending." +:+ nl +:+
  "    The tone should be formal, it's for a professional email. The email should be brief and straight to the point." +:+ nl +:+
  "    If you don't know the answer, just say that you don't know." +:+ nl +:+
  "    " +:+ nl.

Definition LLM_CONTEXT_PROMPT_template : string :=
  instructions +:+ answer_block_template.

Definition LLM_CONTEXT_PROMPT : list piece :=
  [ Lit (instructions +:+ "    context: ");
    Field "context";
    Lit (nl +:+ "    Question: " +:+ dquote);
    Field "question";
    Lit (dquote +:+ nl +:+ "    Answer:" +:+ nl +:+ "    ") ].

End Email.

Section Iterations.
Context {V : Type} `{!PyStr V}.

(** [_context | context_prompt] for any of the context prompts. *)
Definition chain_prompt_with (context_prompt : list piece)
    (retriever : string → result (list (Document V))) (question : string)
  : result string :=
  inputs ← _context retriever question;
  format context_prompt (λ k, inputs !! k).


End Iterations.

(** More sample data: a retriever that finds two named passages, one that
    also finds a passage without a name, and one whose search fails. *)
Definition two_results : string → result (list (Document string)) :=
  λ _, Ok [doc_sales; doc_policy].

Definition unnamed_result : string → result (list (Document string)) :=
  λ _, Ok [doc_sales; doc_unnamed].

Definition failing_search : string → result (list (Document string)) :=
  λ _, Raise KeyError.

(** A second record of the data set, with a [name] of its own. *)
Definition other_record : gmap string string :=
  <["content" := "Our sales organization"]>
    (<["name" := "Sales Organization Overview"]>
       (<["url" := "./sharepoint/sales.txt"]> ∅)).


(** ** Field names Python reads as plain keyword arguments *)





(** ** What reaches the language model *)

Section ModelInput.
Context {V : Type} `{!PyStr V}.

(** A passage wrapped by the per-passage template with its own text as the
    body. *)
Definition wrapped_passage (doc : Document V) : string :=
  nl +:+ "    ---" +:+ nl +:+
  "    SOURCE: " +:+ source_label doc +:+ nl +:+
  "    " +:+ page_content doc +:+ nl +:+
  "    ---" +:+ nl +:+
  "    ".

(** The text the completion model [llm] receives in
    [_context | LLM_CONTEXT_PROMPT | llm]: the chat prompt holds one human
    message, and a completion model is given the message as text, its
    content behind the role prefix. *)
Definition llm_input (retriever : string → result (list (Document V)))
    (question : string) : result string :=
  content ← chain_prompt retriever question;
  mret ("Human: " +:+ content).

End ModelInput.

(** A record that has a [page_content] key of its own beside its
    [content]; [metadata_func] copies that key into the metadata of the
    passage cut from it. *)
Definition shadowing_record : gmap string string :=
  <["content" := "Quarterly figures"]>
    (<["name" := "Sales report"]>
       (<["page_content" := "see attachment"]> ∅)).

Definition doc_shadowed : Document string :=
  mkDocument "Quarterly figures" (metadata_func shadowing_record ∅).

(** * Properties *)

(** ** [metadata_func] *)

Section IngestionFacts.
Context {V : Type}.
Implicit Types (record metadata : gmap string V) (l : list (string * V)).

Lemma metadata_step_lookup_ne metadata (kv : string * V) (k : string) :
  kv.1 ≠ k → metadata_step metadata kv !! k = metadata !! k.
Proof.
  intros Hne. unfold metadata_step.
  case_decide; [by rewrite lookup_insert_ne | done].
Qed.

Lemma metadata_step_lookup_content metadata (kv : string * V) :
  metadata_step metadata kv !! "content" = metadata !! "content".
Proof.
  unfold metadata_step. case_decide; [|done].
  by rewrite lookup_insert_ne.
Qed.

(** The loop never touches a key that is not among the items. *)
Lemma loop_lookup_absent l metadata (k : string) :
  k ∉ l.*1 → foldl metadata_step metadata l !! k = metadata !! k.
Proof.
  revert metadata. induction l as [|kv l IH]; intros metadata Hk; [done|].
  rewrite fmap_cons, not_elem_of_cons in Hk. destruct Hk as [Hne Hk].
  cbn [foldl]. rewrite IH by done.
  by apply metadata_step_lookup_ne.
Qed.

(** The loop never writes the key [content]. *)
Lemma loop_lookup_content l metadata :
  foldl metadata_step metadata l !! "content" = metadata !! "content".
Proof.
  revert metadata. induction l as [|kv l IH]; intros metadata; [done|].
  cbn [foldl]. rewrite IH. apply metadata_step_lookup_content.
Qed.

(** Every item whose key is not [content] is assigned, and ends up in the
    result when keys are not repeated. *)
Lemma loop_lookup_item l metadata (k : string) (v : V) :
  NoDup l.*1 → (k, v) ∈ l → k ≠ "content" →
  foldl metadata_step metadata l !! k = Some v.
Proof.
  revert metadata. induction l as [|kv l IH]; intros metadata Hnd Hin Hk.
  { by apply elem_of_nil in Hin. }
  rewrite fmap_cons in Hnd. apply NoDup_cons in Hnd as [Hfresh Hnd].
  apply elem_of_cons in Hin as [<-|Hin]; cbn [foldl].
  - rewrite loop_lookup_absent by done.
    unfold metadata_step; cbn. rewrite decide_True by done.
    apply lookup_insert_eq.
  - by apply IH.
Qed.

(** X1.  The dictionary returned by [metadata_func] in closed form: the
    record without its [content] entry, laid over the initial metadata. *)
Lemma metadata_func_union record metadata :
  metadata_func record metadata =
  filter (λ kv, kv.1 ≠ "content") record ∪ metadata.
Proof.
  apply map_eq; intros k. unfold metadata_func, items.
  rewrite lookup_union, map_lookup_filter.
  destruct (decide (k = "content")) as [->|Hk].
  - rewrite loop_lookup_content.
    destruct (record !! "content") as [v|]; cbn.
    + rewrite option_guard_False by (intros H; by apply H).
      by destruct (metadata !! "content").
    + by destruct (metadata !! "content").
  - destruct (record !! k) as [v|] eqn:Hrec; cbn.
    + rewrite option_guard_True by done.
      rewrite (loop_lookup_item _ _ k v); [by destruct (metadata !! k)|..|done].
      * apply NoDup_fst_map_to_list.
      * by apply elem_of_map_to_list.
    + rewrite loop_lookup_absent; [by destruct (metadata !! k)|].
      intros Hin. apply list_elem_of_fmap in Hin as [[k' v'] [-> Hin]].
      apply elem_of_map_to_list in Hin. cbn in Hrec. congruence.
Qed.

(** C9.  For every source record and every initial metadata dictionary,
    [metadata_func] returns a dictionary that holds every (key, value) pair
    of the record whose key is not [content]; its [content] entry is the one
    the initial metadata had (nothing comes from the record's [content]);
    and every entry of the initial metadata whose key does not occur in the
    record is unchanged. *)
Theorem metadata_func_spec record metadata :
  (∀ (k : string) (v : V),
      record !! k = Some v → k ≠ "content" →
      metadata_func record metadata !! k = Some v) ∧
  metadata_func record metadata !! "content" = metadata !! "content" ∧
  (∀ k : string,
      record !! k = None →
      metadata_func record metadata !! k = metadata !! k).
Proof.
  unfold metadata_func, items. split_and!.
  - intros k v Hrec Hk. apply loop_lookup_item; [|by apply elem_of_map_to_list|done].
    apply NoDup_fst_map_to_list.
  - apply loop_lookup_content.
  - intros k Hrec. apply loop_lookup_absent.
    intros Hin. apply list_elem_of_fmap in Hin as [[k' v'] [-> Hin]].
    apply elem_of_map_to_list in Hin. cbn in Hrec. congruence.
Qed.

End IngestionFacts.

(** ** Strings: [join], [concatenation] and [contains] *)

Lemma append_cons (c : ascii) (s t : string) :
  String c s +:+ t = String c (s +:+ t).
Proof. reflexivity. Qed.

Lemma append_nil_l (t : string) : EmptyString +:+ t = t.
Proof. reflexivity. Qed.

Lemma append_nil_r (s : string) : s +:+ EmptyString = s.
Proof. induction s as [|c s IH]; [done | by rewrite append_cons, IH]. Qed.

Lemma append_assoc (s t u : string) : (s +:+ t) +:+ u = s +:+ (t +:+ u).
Proof. induction s as [|c s IH]; [done | by rewrite !append_cons, IH]. Qed.

Lemma length_append (s t : string) :
  String.length (s +:+ t) = String.length s + String.length t.
Proof. induction s as [|c s IH]; [done | by rewrite append_cons; cbn; rewrite IH]. Qed.

Lemma join_cons (separator x y : string) (seq : list string) :
  join separator (x :: y :: seq) = x +:+ separator +:+ join separator (y :: seq).
Proof. done. Qed.

(** Python's [join] is the spec's "separator between consecutive blocks,
    then concatenate". *)
Lemma join_concatenation (separator : string) (seq : list string) :
  join separator seq = concatenation (intersperse separator seq).
Proof.
  induction seq as [|x seq IH]; [done|].
  destruct seq as [|y seq].
  - unfold concatenation; cbn [join intersperse foldr].
    symmetry; apply append_nil_r.
  - rewrite join_cons, IH. reflexivity.
Qed.

(** Nothing is cut off: the joined text is as long as its blocks plus one
    separator per gap. *)
Lemma length_join (separator : string) (seq : list string) :
  String.length (join separator seq) =
  sum_list (String.length <$> seq) + (length seq - 1) * String.length separator.
Proof.
  induction seq as [|x seq IH]; [done|].
  destruct seq as [|y seq].
  - cbn. lia.
  - rewrite join_cons, !length_append, IH. cbn. lia.
Qed.

Lemma prefix_append (needle rest : string) :
  String.prefix needle (needle +:+ rest) = true.
Proof.
  induction needle as [|c needle IH]; [by destruct rest|].
  rewrite append_cons. cbn. destruct (ascii_dec c c); [done | congruence].
Qed.

Lemma contains_here (needle rest : string) :
  contains needle (needle +:+ rest) = true.
Proof.
  pose proof (prefix_append needle rest) as H.
  destruct (needle +:+ rest); cbn [contains]; by rewrite H.
Qed.

Lemma contains_later (needle before s : string) :
  contains needle s = true → contains needle (before +:+ s) = true.
Proof.
  intros H. induction before as [|c before IH]; [done|].
  rewrite append_cons. cbn [contains]. rewrite IH. apply orb_true_r.
Qed.

(** Every block occurs in the joined text. *)
Lemma contains_join (separator : string) (seq : list string) (x : string) :
  x ∈ seq → contains x (join separator seq) = true.
Proof.
  induction seq as [|y seq IH]; intros Hin; [by apply elem_of_nil in Hin|].
  destruct seq as [|z seq].
  - apply list_elem_of_singleton in Hin as ->. cbn [join].
    rewrite <- (append_nil_r y) at 2. apply contains_here.
  - rewrite join_cons. apply elem_of_cons in Hin as [->|Hin].
    + apply contains_here.
    + apply contains_later, contains_later. by apply IH.
Qed.

(** ** Templates *)

Lemma LLM_DOCUMENT_PROMPT_parsed :
  from_template LLM_DOCUMENT_PROMPT_template = Ok LLM_DOCUMENT_PROMPT.
Proof. vm_compute. reflexivity. Qed.

Lemma LLM_CONTEXT_PROMPT_parsed :
  from_template LLM_CONTEXT_PROMPT_template = Ok LLM_CONTEXT_PROMPT.
Proof. vm_compute. reflexivity. Qed.

(** ** The list comprehension *)

Lemma comprehension_ok {A B : Type} (f : A → result B) (g : A → B)
    (xs : list A) :
  Forall (λ x, f x = Ok (g x)) xs → comprehension f xs = Ok (g <$> xs).
Proof.
  induction 1 as [|x xs Hx _ IH]; [done|].
  cbn [comprehension]. rewrite Hx, IH. reflexivity.
Qed.

Lemma comprehension_raise {A B : Type} (f : A → result B) (e : exn)
    (xs : list A) :
  Forall (λ x, f x = Raise e ∨ ∃ y, f x = Ok y) xs →
  Exists (λ x, f x = Raise e) xs →
  comprehension f xs = Raise e.
Proof.
  induction 1 as [|x xs Hx _ IH]; intros Hex; [by apply Exists_nil in Hex|].
  cbn [comprehension].
  destruct Hx as [Hx|[y Hx]]; rewrite Hx; [done|].
  apply Exists_cons in Hex as [Hex|Hex]; [congruence|].
  rewrite IH by done. reflexivity.
Qed.

(** ** [format_document] and [_combine_documents] *)

Section AssemblerFacts.
Context {V : Type} `{!PyStr V}.
Implicit Types (doc : Document V) (docs : list (Document V)).

Lemma document_info_page_content doc :
  document_info doc "page_content" = Some (passage_body doc).
Proof.
  unfold document_info, passage_body.
  by destruct (metadata doc !! "page_content").
Qed.

(** A document with a [name] is wrapped by the template. *)
Lemma format_document_named doc :
  is_Some (metadata doc !! "name") →
  format_document doc LLM_DOCUMENT_PROMPT = Ok (wrapped doc).
Proof.
  intros [v Hv].
  assert (document_info doc "name" = Some (source_label doc)) as Hname.
  { unfold document_info, source_label. by rewrite Hv. }
  pose proof (document_info_page_content doc) as Hbody.
  unfold format_document. cbn [LLM_DOCUMENT_PROMPT input_variables].
  rewrite !filter_cons, filter_nil, Hname, Hbody.
  destruct (decide (Some (source_label doc) = None)) as [?|_]; [done|].
  destruct (decide (Some (passage_body doc) = None)) as [?|_]; [done|].
  rewrite decide_False by (cbn; lia).
  unfold LLM_DOCUMENT_PROMPT. cbn [format]. rewrite Hname. cbn [format]. rewrite Hbody. reflexivity.
Qed.

(** A document without a [name] is refused: the template's [name] variable
    has nothing to show. *)
Lemma format_document_unnamed doc :
  metadata doc !! "name" = None →
  format_document doc LLM_DOCUMENT_PROMPT = Raise ValueError.
Proof.
  intros Hv.
  assert (document_info doc "name" = None) as Hname.
  { unfold document_info. rewrite Hv. by rewrite decide_False. }
  unfold format_document. cbn [LLM_DOCUMENT_PROMPT input_variables].
  rewrite filter_cons, Hname.
  destruct (decide (None = None)) as [_|?]; [|done].
  rewrite decide_True by (cbn; lia). reflexivity.
Qed.

(** One document without a [name] makes the whole call raise. *)
Lemma combine_documents_unnamed docs (separator : string) :
  Exists (λ doc, metadata doc !! "name" = None) docs →
  _combine_documents docs LLM_DOCUMENT_PROMPT separator = Raise ValueError.
Proof.
  intros Hex. unfold _combine_documents.
  rewrite (comprehension_raise _ ValueError); [done|..].
  - apply Forall_forall. intros doc _.
    destruct (metadata doc !! "name") as [v|] eqn:Hv.
    + right. exists (wrapped doc). apply format_document_named. by exists v.
    + left. by apply format_document_unnamed.
  - eapply Exists_impl; [exact Hex|]. intros doc. apply format_document_unnamed.
Qed.

(** X14.  Every wrapped passage, with its [SOURCE:] line, occurs in the
    context block assembled from named documents. *)
Lemma combine_documents_contains docs (separator : string) doc :
  Forall (λ doc, is_Some (metadata doc !! "name")) docs →
  doc ∈ docs →
  ∃ s, _combine_documents docs LLM_DOCUMENT_PROMPT separator = Ok s ∧
       contains (wrapped doc) s = true ∧
       contains ("SOURCE: " +:+ source_label doc) (wrapped doc) = true.
Proof.
  intros Hnamed Hin. exists (join separator (wrapped <$> docs)). split_and!.
  - unfold _combine_documents.
    rewrite (comprehension_ok _ wrapped); [done|].
    eapply Forall_impl; [exact Hnamed|]. intros d. apply format_document_named.
  - apply contains_join. by apply list_elem_of_fmap_2.
  - change (wrapped doc) with
      ((nl +:+ "    ---" +:+ nl +:+ "    ") +:+
       ("SOURCE: " +:+ source_label doc) +:+
       (nl +:+ "    " +:+ passage_body doc +:+ nl +:+ "    ---" +:+ nl +:+ "    ")).
    apply contains_later, contains_here.
Qed.

(** C7 (as amended).  For every sequence of retrieved Passages each of which
    carries a [name] metadata entry and no [page_content] metadata entry,
    and every separator, [_combine_documents] returns one string: the
    Passages, in the order received, each one's own text wrapped by the
    per-passage template with its [SOURCE:] label, the separator placed
    between consecutive wrapped Passages, all concatenated with nothing
    dropped or reordered. *)
Theorem combine_documents_wrapped docs (separator : string) :
  Forall (λ doc, is_Some (metadata doc !! "name") ∧
                 metadata doc !! "page_content" = None) docs →
  _combine_documents docs LLM_DOCUMENT_PROMPT separator =
  Ok (concatenation (intersperse separator (wrapped_passage <$> docs))).
Proof.
  intros Hdocs. unfold _combine_documents.
  rewrite (comprehension_ok _ wrapped_passage).
  - cbn. by rewrite join_concatenation.
  - eapply Forall_impl; [exact Hdocs|]. intros d [Hname Hbody].
    rewrite format_document_named by done. f_equal.
    unfold wrapped, wrapped_passage, passage_body. by rewrite Hbody.
Qed.

(** C10 (as amended).  On an empty sequence [_combine_documents] returns the
    empty string, for every template and separator; on a single Passage it
    returns exactly what [format_document] gives for that Passage, so the
    join adds no separator; and when the retriever finds nothing the answer
    prompt is built with an empty context instead of the call failing. *)
Theorem combine_documents_empty_single :
  (∀ (prompt : list piece) (separator : string),
      _combine_documents (V := V) [] prompt separator = Ok EmptyString) ∧
  (∀ doc (prompt : list piece) (separator : string),
      _combine_documents [doc] prompt separator = format_document doc prompt) ∧
  (∀ (retriever : string → result (list (Document V))) (question : string),
      retriever question = Ok [] →
      chain_prompt retriever question =
      Ok (answer_prompt EmptyString question)).
Proof.
  split_and!.
  - reflexivity.
  - intros doc prompt separator. unfold _combine_documents.
    cbn [comprehension]. by destruct (format_document doc prompt).
  - intros retriever question Hnone.
    unfold chain_prompt, _context. rewrite Hnone. cbn.
    rewrite lookup_insert_eq.
    rewrite lookup_insert_ne by done. rewrite lookup_insert_eq.
    reflexivity.
Qed.

End AssemblerFacts.

(** ** The properties on the sample data *)

(** [metadata_func_spec] on the sample record: the record's [name] and
    [category] are copied (the latter over the loader's value), [content] is
    not, and the loader's [source] stays. *)
Lemma metadata_func_spec_witness :
  metadata_func sample_record loader_metadata !! "name"
    = Some "Work From Home Policy" ∧
  metadata_func sample_record loader_metadata !! "category" = Some "teams" ∧
  metadata_func sample_record loader_metadata !! "content" = None ∧
  metadata_func sample_record loader_metadata !! "source" = Some "temp.json".
Proof.
  destruct (metadata_func_spec sample_record loader_metadata)
    as (Hcopy & Hcontent & Hkeep).
  split_and!.
  - apply Hcopy; [reflexivity | discriminate].
  - apply Hcopy; [reflexivity | discriminate].
  - rewrite Hcontent. reflexivity.
  - rewrite Hkeep; reflexivity.
Defined.

(** C7 as stated fails in two ways.  A Passage without a [name] entry is a
    well-formed retrieved Passage, and for it no string is returned at all.
    And for a named Passage cut from a record with a [page_content] key,
    the string returned prints that metadata value in the body: the
    Passage's own text does not occur in it. *)
Lemma combine_documents_wrapped_counterexample :
  ([doc_unnamed] ≠ [] ∧
   _combine_documents [doc_unnamed] LLM_DOCUMENT_PROMPT default_separator
     = Raise ValueError ∧
   ∀ s : string,
     _combine_documents [doc_unnamed] LLM_DOCUMENT_PROMPT default_separator
       ≠ Ok s) ∧
  ([doc_shadowed] ≠ [] ∧
   is_Some (metadata doc_shadowed !! "name") ∧
   ∃ s : string,
     _combine_documents [doc_shadowed] LLM_DOCUMENT_PROMPT default_separator
       = Ok s ∧
     contains (page_content doc_shadowed) s = false ∧
     contains "see attachment" s = true).
Proof.
  assert (_combine_documents [doc_unnamed] LLM_DOCUMENT_PROMPT default_separator
          = Raise ValueError) as Hraise by (vm_compute; reflexivity).
  split.
  - split_and!; [discriminate | exact Hraise |].
    intros s Hs. rewrite Hraise in Hs. discriminate.
  - split_and!; [discriminate | by eexists |].
    eexists. split_and!; vm_compute; reflexivity.
Qed.

Lemma combine_documents_wrapped_witness :
  Forall (λ doc : Document string,
            is_Some (metadata doc !! "name") ∧
            metadata doc !! "page_content" = None)
         [doc_sales; doc_policy] ∧
  _combine_documents [doc_sales; doc_policy] LLM_DOCUMENT_PROMPT
                     default_separator
  = Ok (concatenation
          (intersperse default_separator
                       (wrapped_passage <$> [doc_sales; doc_policy]))).
Proof.
  assert (Forall (λ doc : Document string,
                    is_Some (metadata doc !! "name") ∧
                    metadata doc !! "page_content" = None)
                 [doc_sales; doc_policy]) as Hdocs.
  { repeat constructor; try (eexists; reflexivity). }
  split; [exact Hdocs|].
  apply (combine_documents_wrapped [doc_sales; doc_policy] default_separator).
  exact Hdocs.
Defined.

(** C10 as stated fails on its last clause: the text returned for the single
    Passage [doc_policy] does contain the separator, because the Passage's
    own body has a blank line. *)
Lemma combine_documents_single_counterexample :
  ∃ s : string,
    _combine_documents [doc_policy] LLM_DOCUMENT_PROMPT default_separator
      = Ok s ∧
    contains default_separator s = true.
Proof. eexists. split; vm_compute; reflexivity. Qed.

Lemma combine_documents_empty_single_witness :
  no_results "what is the nasa sales team?" = Ok [] ∧
  chain_prompt no_results "what is the nasa sales team?"
  = Ok (answer_prompt EmptyString "what is the nasa sales team?").
Proof.
  split; [reflexivity|].
  apply (combine_documents_empty_single (V := string)). reflexivity.
Defined.

(** * Further properties of the notebook's code *)

(** ** [metadata_func]: domain, repetition, composition *)

Section IngestionMore.
Context {V : Type}.
Implicit Types (record metadata : gmap string V).

(** Every entry of the returned dictionary, read off the two arguments. *)
Lemma metadata_func_lookup record metadata (k : string) :
  metadata_func record metadata !! k =
  if decide (k = "content") then metadata !! k
  else match record !! k with
       | Some v => Some v
       | None => metadata !! k
       end.
Proof.
  unfold metadata_func, items. case_decide as Hk.
  - subst k. apply loop_lookup_content.
  - destruct (record !! k) as [v|] eqn:Hrec.
    + apply loop_lookup_item; [apply NoDup_fst_map_to_list| |done].
      by apply elem_of_map_to_list.
    + apply loop_lookup_absent.
      intros Hin. apply list_elem_of_fmap in Hin as [[k' v'] [-> Hin]].
      apply elem_of_map_to_list in Hin. cbn in Hrec. congruence.
Qed.

(** X2.  The keys of the returned dictionary are the keys of the record,
    [content] excepted, together with the keys the metadata already had: no
    key is ever removed, and [content] is a key of the result only if the
    initial metadata had it. *)
Theorem metadata_func_dom record metadata :
  dom (metadata_func record metadata) =
  (dom record ∖ {["content"]}) ∪ dom metadata.
Proof.
  apply set_eq. intros k.
  rewrite elem_of_union, elem_of_difference, not_elem_of_singleton.
  rewrite !elem_of_dom, metadata_func_lookup.
  case_decide as Hk.
  - subst k. split; [by right | intros [[_ ?]|?]; done].
  - destruct (record !! k) as [v|].
    + split; [intros _; left; split; [by eexists|done] | by eexists].
    + split; [by right | intros [[[? ?] _]|?]; done].
Qed.

(** X3.  Running [metadata_func] again with the same record on the
    dictionary it returned changes nothing. *)
Theorem metadata_func_idempotent record metadata :
  metadata_func record (metadata_func record metadata) =
  metadata_func record metadata.
Proof.
  apply map_eq. intros k. rewrite !metadata_func_lookup.
  case_decide; [done|]. by destruct (record !! k).
Qed.

(** X4.  [metadata_func] leaves the metadata as it was exactly when every
    entry of the record other than [content] is already in the metadata
    with the same value. *)
Theorem metadata_func_unchanged_iff record metadata :
  metadata_func record metadata = metadata ↔
  ∀ (k : string) (v : V),
    record !! k = Some v → k ≠ "content" → metadata !! k = Some v.
Proof.
  split.
  - intros Heq k v Hrec Hk. rewrite <- Heq, metadata_func_lookup.
    rewrite decide_False by done. by rewrite Hrec.
  - intros Hin. apply map_eq. intros k. rewrite metadata_func_lookup.
    case_decide as Hk; [done|].
    destruct (record !! k) as [v|] eqn:Hrec; [|done].
    symmetry. by apply Hin.
Qed.

(** X5.  Feeding two records one after the other is feeding their union,
    the later record winning on a shared key. *)
Theorem metadata_func_compose (first second : gmap string V) metadata :
  metadata_func second (metadata_func first metadata) =
  metadata_func (second ∪ first) metadata.
Proof.
  apply map_eq. intros k. rewrite !metadata_func_lookup, lookup_union.
  case_decide; [done|].
  by destruct (second !! k), (first !! k).
Qed.

End IngestionMore.

(** ** [format] and [format_document] on any template *)


Section FormatDocument.
Context {V : Type} `{!PyStr V}.
Implicit Types (doc : Document V) (docs : list (Document V)).




End FormatDocument.

(** ** [join] and the comprehension over a split sequence *)

Lemma join_app (separator : string) (front back : list string) :
  front ≠ [] → back ≠ [] →
  join separator (front ++ back) =
  join separator front +:+ separator +:+ join separator back.
Proof.
  intros Hfront Hback. induction front as [|x front IH]; [done|].
  destruct front as [|y front].
  - destruct back as [|z back]; [done|]. reflexivity.
  - change ((x :: y :: front) ++ back)%list with (x :: y :: (front ++ back))%list.
    rewrite !join_cons.
    change (y :: (front ++ back))%list with ((y :: front) ++ back)%list.
    rewrite IH by done. by rewrite !append_assoc.
Qed.

Lemma comprehension_length {A B : Type} (f : A → result B) (xs : list A)
    (ys : list B) :
  comprehension f xs = Ok ys → length ys = length xs.
Proof.
  revert ys. induction xs as [|x xs IH]; intros ys; cbn [comprehension].
  - by intros [= <-].
  - destruct (f x) as [y|e]; [|discriminate]. cbn.
    destruct (comprehension f xs) as [ys'|e]; [|discriminate]. cbn.
    intros [= <-]. cbn. by rewrite (IH ys').
Qed.

Lemma comprehension_app {A B : Type} (f : A → result B) (xs xs' : list A)
    (ys ys' : list B) :
  comprehension f xs = Ok ys → comprehension f xs' = Ok ys' →
  comprehension f (xs ++ xs') = Ok (ys ++ ys')%list.
Proof.
  revert ys. induction xs as [|x xs IH]; intros ys; cbn [comprehension].
  - by intros [= <-].
  - destruct (f x) as [y|e] eqn:Hx; [|discriminate]. cbn.
    destruct (comprehension f xs) as [zs|e]; [|discriminate]. cbn.
    intros [= <-] Hback. cbn [app comprehension].
    rewrite Hx, (IH zs) by done. reflexivity.
Qed.

Section AssemblerMore.
Context {V : Type} `{!PyStr V}.
Implicit Types (doc : Document V) (docs : list (Document V)).

(** X8.  A context can be assembled in two batches: when both halves of a
    sequence are non-empty and combine to [front] and [back], the whole
    sequence combines to [front], the separator, then [back]. *)
Theorem combine_documents_app docs docs' (prompt : list piece)
    (separator front back : string) :
  docs ≠ [] → docs' ≠ [] →
  _combine_documents docs prompt separator = Ok front →
  _combine_documents docs' prompt separator = Ok back →
  _combine_documents (docs ++ docs') prompt separator =
  Ok (front +:+ separator +:+ back).
Proof.
  intros Hne Hne'. unfold _combine_documents.
  destruct (comprehension _ docs) as [strs|e] eqn:Hstrs; [|discriminate].
  destruct (comprehension _ docs') as [strs'|e] eqn:Hstrs'; [|discriminate].
  cbn. intros [= <-] [= <-].
  rewrite (comprehension_app _ _ _ strs strs') by done. cbn.
  rewrite join_app; [done|..].
  - apply comprehension_length in Hstrs. by destruct strs, docs.
  - apply comprehension_length in Hstrs'. by destruct strs', docs'.
Qed.

(** With [name] on every document the call succeeds with the joined
    wrapped passages. *)
Lemma combine_documents_named_join docs (separator : string) :
  Forall (λ doc, is_Some (metadata doc !! "name")) docs →
  _combine_documents docs LLM_DOCUMENT_PROMPT separator =
  Ok (join separator (wrapped <$> docs)).
Proof.
  intros Hnamed. unfold _combine_documents.
  rewrite (comprehension_ok _ wrapped); [done|].
  eapply Forall_impl; [exact Hnamed|]. intros d. apply format_document_named.
Qed.

(** X7.  With the notebook's document prompt, [_combine_documents] returns
    a string if and only if every document has a [name] metadata entry. *)
Theorem combine_documents_named_iff docs (separator : string) :
  (∃ s, _combine_documents docs LLM_DOCUMENT_PROMPT separator = Ok s) ↔
  Forall (λ doc, is_Some (metadata doc !! "name")) docs.
Proof.
  split.
  - intros [s Hs].
    destruct (decide (Forall (λ doc, is_Some (metadata doc !! "name")) docs))
      as [Hall|Hnot]; [done|].
    apply not_Forall_Exists in Hnot; [|apply _].
    rewrite (combine_documents_unnamed docs separator) in Hs; [discriminate|].
    eapply Exists_impl; [exact Hnot|]. intros doc Hdoc. cbn in Hdoc.
    by apply eq_None_not_Some.
  - intros Hnamed. eexists. by apply combine_documents_named_join.
Qed.

Lemma length_wrapped doc :
  String.length (wrapped doc) =
  39 + String.length (source_label doc) + String.length (passage_body doc).
Proof. unfold wrapped. rewrite !length_append. cbn. lia. Qed.

(** X9.  Nothing is truncated or padded: the context built from named
    documents has the length of the bodies and labels, 39 characters of
    template per document, and one separator per gap. *)
Theorem combine_documents_length docs (separator : string) :
  Forall (λ doc, is_Some (metadata doc !! "name")) docs →
  ∃ s, _combine_documents docs LLM_DOCUMENT_PROMPT separator = Ok s ∧
       String.length s =
       sum_list ((λ doc, 39 + String.length (source_label doc)
                         + String.length (passage_body doc)) <$> docs)
       + (length docs - 1) * String.length separator.
Proof.
  intros Hnamed. eexists. split; [by apply combine_documents_named_join|].
  rewrite length_join, length_fmap. f_equal.
  clear Hnamed. induction docs as [|doc docs IH]; [done|].
  cbn. by rewrite IH, length_wrapped.
Qed.

End AssemblerMore.

(** ** The chain up to the language model *)

(** Filling a context prompt of the notebook's shape from the two entries
    [_context] produces. *)
Lemma format_context_prompt (head middle tail context question : string) :
  format [Lit head; Field "context"; Lit middle; Field "question"; Lit tail]
         (λ k, (<["context" := context]> (<["question" := question]> ∅)
                 : gmap string string) !! k)
  = Ok (head +:+ context +:+ middle +:+ question +:+ tail).
Proof.
  cbn [format]. rewrite lookup_insert_eq. cbn [format].
  rewrite lookup_insert_ne by done. rewrite lookup_insert_eq.
  cbn. by rewrite append_nil_r.
Qed.

Lemma Bullets_prompt_parsed :
  from_template Bullets.LLM_CONTEXT_PROMPT_template
  = Ok Bullets.LLM_CONTEXT_PROMPT.
Proof. vm_compute. reflexivity. Qed.

Lemma Email_prompt_parsed :
  from_template Email.LLM_CONTEXT_PROMPT_template
  = Ok Email.LLM_CONTEXT_PROMPT.
Proof. vm_compute. reflexivity. Qed.

Section ChainFacts.
Context {V : Type} `{!PyStr V}.
Implicit Types (doc : Document V) (docs : list (Document V)).
Implicit Types (retriever : string → result (list (Document V))).

(** What [_context] returns, by the retriever's outcome. *)
Lemma context_named retriever (question : string) docs :
  retriever question = Ok docs →
  Forall (λ doc, is_Some (metadata doc !! "name")) docs →
  _context retriever question =
  Ok (<["context" := join default_separator (wrapped <$> docs)]>
        (<["question" := question]> ∅)).
Proof.
  intros Hdocs Hnamed. unfold _context. rewrite Hdocs. cbn.
  rewrite combine_documents_named_join by done. reflexivity.
Qed.

Lemma context_unnamed retriever (question : string) docs :
  retriever question = Ok docs →
  Exists (λ doc, metadata doc !! "name" = None) docs →
  _context retriever question = Raise ValueError.
Proof.
  intros Hdocs Hex. unfold _context. rewrite Hdocs. cbn.
  rewrite combine_documents_unnamed by done. reflexivity.
Qed.

Lemma context_failed retriever (question : string) (e : exn) :
  retriever question = Raise e → _context retriever question = Raise e.
Proof. intros Hdocs. unfold _context. by rewrite Hdocs. Qed.

(** X10.  When the retriever returns documents that all have a [name], the
    content of the prompt message is the instructions followed by the slot
    block, with the joined formatted passages in the context slot and the
    question, character for character, between the quotes; and the text
    handed to the language model is [Human: ] followed by that content. *)
Theorem chain_prompt_named retriever (question : string) docs :
  retriever question = Ok docs →
  Forall (λ doc, is_Some (metadata doc !! "name")) docs →
  chain_prompt retriever question =
  Ok (instructions +:+
      answer_block (join default_separator (wrapped <$> docs)) question) ∧
  llm_input retriever question =
  Ok ("Human: " +:+ instructions +:+
      answer_block (join default_separator (wrapped <$> docs)) question).
Proof.
  intros Hdocs Hnamed.
  assert (chain_prompt retriever question =
          Ok (instructions +:+
              answer_block (join default_separator (wrapped <$> docs))
                           question)) as Hcontent.
  { unfold chain_prompt. rewrite (context_named _ _ docs) by done.
    cbn [mbind result_bind]. unfold LLM_CONTEXT_PROMPT.
    rewrite format_context_prompt. reflexivity. }
  split; [exact Hcontent|].
  unfold llm_input. rewrite Hcontent. reflexivity.
Qed.

(** X11.  The chain fails before reaching the language model in exactly two
    ways: the retriever's own exception is passed on, or the retriever
    returned a document without a [name] and the call ends in
    [ValueError]. *)
Theorem chain_prompt_raise_iff retriever (question : string) (e : exn) :
  chain_prompt retriever question = Raise e ↔
  retriever question = Raise e ∨
  (e = ValueError ∧
   ∃ docs, retriever question = Ok docs ∧
           Exists (λ doc, metadata doc !! "name" = None) docs).
Proof.
  unfold chain_prompt.
  destruct (retriever question) as [docs|e'] eqn:Hdocs.
  - destruct (decide (Forall (λ doc, is_Some (metadata doc !! "name")) docs))
      as [Hnamed|Hnot].
    + rewrite (context_named _ _ docs) by done.
      cbn [mbind result_bind]. unfold LLM_CONTEXT_PROMPT.
      rewrite format_context_prompt. split; [discriminate|].
      intros [?|(_ & docs' & [= <-] & Hex)]; [discriminate|].
      apply Exists_exists in Hex as (doc & Hin & Hnone).
      rewrite Forall_forall in Hnamed. destruct (Hnamed doc Hin) as [v Hv].
      congruence.
    + apply not_Forall_Exists in Hnot; [|apply _].
      assert (Exists (λ doc, metadata doc !! "name" = None) docs) as Hex.
      { eapply Exists_impl; [exact Hnot|]. intros doc Hdoc. cbn in Hdoc.
        by apply eq_None_not_Some. }
      rewrite (context_unnamed _ _ docs) by done. cbn. split.
      * intros [= <-]. right. split; [done|]. by exists docs.
      * intros [?|(-> & _)]; [discriminate | done].
  - rewrite (context_failed _ _ e') by done. cbn. split.
    + intros [= <-]. by left.
    + intros [[= <-]|(_ & docs & ? & _)]; [done | discriminate].
Qed.

(** X12.  The three iterations of the chain differ in their instructions
    only: whenever the first chain produces a prompt, the bullet-point and
    e-mail chains produce theirs with the same context and question in the
    same slot block, and whenever the first chain raises, the other two
    raise the same exception. *)
Theorem iterations_differ_by_instructions retriever (question : string) :
  match chain_prompt retriever question with
  | Ok s =>
      ∃ context,
        s = instructions +:+ answer_block context question ∧
        chain_prompt_with Bullets.LLM_CONTEXT_PROMPT retriever question
        = Ok (Bullets.instructions +:+ answer_block context question) ∧
        chain_prompt_with Email.LLM_CONTEXT_PROMPT retriever question
        = Ok (Email.instructions +:+ answer_block context question)
  | Raise e =>
      chain_prompt_with Bullets.LLM_CONTEXT_PROMPT retriever question
      = Raise e ∧
      chain_prompt_with Email.LLM_CONTEXT_PROMPT retriever question
      = Raise e
  end.
Proof.
  unfold chain_prompt, chain_prompt_with, _context.
  destruct (retriever question) as [docs|e]; [|by cbn].
  cbn [mbind result_bind].
  destruct (_combine_documents docs LLM_DOCUMENT_PROMPT default_separator)
    as [context|e]; [|by cbn].
  cbn [mbind result_bind mret result_ret].
  unfold LLM_CONTEXT_PROMPT, Bullets.LLM_CONTEXT_PROMPT,
    Email.LLM_CONTEXT_PROMPT.
  rewrite !format_context_prompt. exists context. split_and!; reflexivity.
Qed.

End ChainFacts.

(** ** From a source record to its wrapped passage *)

Section IngestThenAssemble.
Context {V : Type} `{!PyStr V}.
Implicit Types (record metadata : gmap string V).

(** X13.  A passage cut from a record that has a [name] is always accepted
    by the document prompt, and the label after [SOURCE:] is the record's
    own name, whatever the loader had put in the metadata; a passage from a
    record without a [name], loaded over metadata without one, is
    refused. *)
Theorem ingested_passage_label record metadata (text : string) :
  (∀ v : V,
     record !! "name" = Some v →
     format_document (mkDocument text (metadata_func record metadata))
                     LLM_DOCUMENT_PROMPT
     = Ok (wrapped (mkDocument text (metadata_func record metadata))) ∧
     source_label (mkDocument text (metadata_func record metadata))
     = py_str v) ∧
  (record !! "name" = None → metadata !! "name" = None →
   format_document (mkDocument text (metadata_func record metadata))
                   LLM_DOCUMENT_PROMPT
   = Raise ValueError).
Proof.
  split.
  - intros v Hv.
    assert (metadata_func record metadata !! "name" = Some v) as Hname.
    { rewrite metadata_func_lookup, decide_False by done. by rewrite Hv. }
    split.
    + apply format_document_named. cbn. by exists v.
    + unfold source_label. cbn. by rewrite Hname.
  - intros Hrec Hmeta. apply format_document_unnamed. cbn.
    rewrite metadata_func_lookup, decide_False by done. by rewrite Hrec.
Qed.

End IngestThenAssemble.

(** ** The further properties on the sample data *)

Lemma metadata_func_unchanged_iff_witness :
  (∀ (k : string) (v : string),
     sample_record !! k = Some v → k ≠ "content" →
     metadata_func sample_record loader_metadata !! k = Some v) ∧
  metadata_func sample_record (metadata_func sample_record loader_metadata)
  = metadata_func sample_record loader_metadata.
Proof.
  assert (∀ (k : string) (v : string),
            sample_record !! k = Some v → k ≠ "content" →
            metadata_func sample_record loader_metadata !! k = Some v) as Hin.
  { intros k v Hk Hne. rewrite metadata_func_lookup, decide_False by done.
    by rewrite Hk. }
  split; [exact Hin|].
  apply (metadata_func_unchanged_iff sample_record
           (metadata_func sample_record loader_metadata)).
  exact Hin.
Defined.


Lemma combine_documents_named_iff_witness :
  (∃ s, _combine_documents [doc_sales; doc_policy] LLM_DOCUMENT_PROMPT
                           default_separator = Ok s) ∧
  Forall (λ doc : Document string, is_Some (metadata doc !! "name"))
         [doc_sales; doc_policy].
Proof.
  assert (∃ s, _combine_documents [doc_sales; doc_policy] LLM_DOCUMENT_PROMPT
                                  default_separator = Ok s) as Hok.
  { eexists. vm_compute. reflexivity. }
  split; [exact Hok|].
  apply (combine_documents_named_iff [doc_sales; doc_policy] default_separator).
  exact Hok.
Defined.

Lemma combine_documents_app_witness :
  _combine_documents [doc_sales; doc_policy] LLM_DOCUMENT_PROMPT
                     default_separator
  = Ok (wrapped doc_sales +:+ default_separator +:+ wrapped doc_policy).
Proof.
  apply (combine_documents_app [doc_sales] [doc_policy] LLM_DOCUMENT_PROMPT
           default_separator (wrapped doc_sales) (wrapped doc_policy));
    [discriminate | discriminate | reflexivity | reflexivity].
Defined.

Lemma combine_documents_length_witness :
  ∃ s, _combine_documents [doc_sales; doc_policy] LLM_DOCUMENT_PROMPT
                          default_separator = Ok s ∧
       String.length s = 201.
Proof.
  destruct (combine_documents_length [doc_sales; doc_policy] default_separator)
    as (s & Hs & Hlen).
  { repeat constructor; eexists; reflexivity. }
  exists s. split; [exact Hs|]. rewrite Hlen. reflexivity.
Defined.

Lemma combine_documents_contains_witness :
  ∃ s, _combine_documents [doc_sales; doc_policy] LLM_DOCUMENT_PROMPT
                          default_separator = Ok s ∧
       contains (wrapped doc_policy) s = true ∧
       contains ("SOURCE: " +:+ source_label doc_policy) (wrapped doc_policy)
       = true.
Proof.
  apply (combine_documents_contains [doc_sales; doc_policy] default_separator
           doc_policy).
  - repeat constructor; eexists; reflexivity.
  - apply elem_of_cons. right. apply elem_of_cons. by left.
Defined.

Lemma chain_prompt_named_witness :
  chain_prompt two_results "what is the nasa sales team?"
  = Ok (instructions +:+
        answer_block (join default_separator
                           (wrapped <$> [doc_sales; doc_policy]))
                     "what is the nasa sales team?") ∧
  llm_input two_results "what is the nasa sales team?"
  = Ok ("Human: " +:+ instructions +:+
        answer_block (join default_separator
                           (wrapped <$> [doc_sales; doc_policy]))
                     "what is the nasa sales team?").
Proof.
  apply (chain_prompt_named two_results "what is the nasa sales team?"
           [doc_sales; doc_policy]).
  - reflexivity.
  - repeat constructor; eexists; reflexivity.
Defined.

Lemma chain_prompt_raise_iff_witness :
  chain_prompt unnamed_result "What are our core values?" = Raise ValueError ∧
  chain_prompt failing_search "What are our core values?" = Raise KeyError.
Proof.
  split.
  - apply (chain_prompt_raise_iff unnamed_result "What are our core values?"
             ValueError).
    right. split; [reflexivity|]. exists [doc_sales; doc_unnamed].
    split; [reflexivity|]. apply Exists_cons. right.
    apply Exists_cons. left. reflexivity.
  - apply (chain_prompt_raise_iff failing_search "What are our core values?"
             KeyError).
    left. reflexivity.
Defined.

Lemma ingested_passage_label_witness :
  format_document
    (mkDocument "Effective: March 2020"
                (metadata_func sample_record loader_metadata))
    LLM_DOCUMENT_PROMPT
  = Ok (wrapped (mkDocument "Effective: March 2020"
                            (metadata_func sample_record loader_metadata))) ∧
  source_label (mkDocument "Effective: March 2020"
                           (metadata_func sample_record loader_metadata))
  = "Work From Home Policy".
Proof.
  exact (proj1 (ingested_passage_label sample_record loader_metadata
                  "Effective: March 2020") "Work From Home Policy" eq_refl).
Defined.
